(** * config/gcp_config.py: the GCP and BigQuery configuration literals

    The module binds two names, [GCP_CONFIG] and [BIGQUERY_CONFIG], to
    dictionary displays whose leaves are string literals.  Python values are
    embedded as the inductive [pyval]; a dictionary is an association list in
    insertion order, built the way a dictionary display builds it (one
    [dict_setitem] per entry), and a subscript [d[k]] is a [result] that can
    raise [KeyError] or [TypeError]. *)

From Stdlib Require Import String Ascii List Arith Lia Bool.
From stdpp Require Import base option list strings.

Local Open Scope string_scope.
Local Open Scope list_scope.

(** ** Exceptions and results *)

Inductive exn : Type :=
| KeyError (k : string)
| TypeError
| NameError (x : string)
| JSONDecodeError.

Inductive result (A : Type) : Type :=
| Ok (a : A)
| Raise (e : exn).

Arguments Ok {A} a.
Arguments Raise {A} e.

#[global] Instance result_ret : MRet result := fun A a => Ok a.
#[global] Instance result_bind : MBind result := fun A B f m =>
  match m with
  | Ok a => f a
  | Raise e => Raise e
  end.
#[global] Instance result_fmap : FMap result := fun A B f m =>
  match m with
  | Ok a => Ok (f a)
  | Raise e => Raise e
  end.

(** ** Python values *)

Unset Elimination Schemes.
Inductive pyval : Type :=
| PStr (s : string)
| PList (items : list pyval)
| PDict (entries : list (string * pyval)).
Set Elimination Schemes.

(** Structural induction that reaches the values nested in lists and
    dictionaries. *)
Definition pyval_ind (P : pyval -> Prop)
    (fstr : forall s, P (PStr s))
    (flist : forall items, Forall P items -> P (PList items))
    (fdict : forall entries, Forall (fun kv => P (snd kv)) entries -> P (PDict entries)) :
    forall v, P v :=
  fix go (v : pyval) : P v :=
    match v with
    | PStr s => fstr s
    | PList items =>
        flist items
          ((fix all (l : list pyval) : Forall P l :=
              match l with
              | [] => List.Forall_nil P
              | x :: l' => List.Forall_cons P x l' (go x) (all l')
              end) items)
    | PDict entries =>
        fdict entries
          ((fix all (l : list (string * pyval)) : Forall (fun kv => P (snd kv)) l :=
              match l with
              | [] => List.Forall_nil _
              | kv :: l' => List.Forall_cons _ kv l' (go (snd kv)) (all l')
              end) entries)
    end.

(** ** Dictionaries *)

(** [d[k] = v] on the entries of a dictionary: an existing key keeps its
    position and takes the new value, a new key goes last. *)
Fixpoint dict_setitem (d : list (string * pyval)) (k : string) (v : pyval)
    : list (string * pyval) :=
  match d with
  | [] => [(k, v)]
  | (k', v') :: d' =>
      if String.eqb k' k then (k', v) :: d' else (k', v') :: dict_setitem d' k v
  end.

(** A dictionary display [{k1: v1, ..., kn: vn}], and [dict(pairs)]: the
    entries are stored left to right. *)
Definition dict_display (pairs : list (string * pyval)) : list (string * pyval) :=
  fold_left (fun d kv => dict_setitem d (fst kv) (snd kv)) pairs [].

Fixpoint dict_get (d : list (string * pyval)) (k : string) : option pyval :=
  match d with
  | [] => None
  | (k', v) :: d' => if String.eqb k' k then Some v else dict_get d' k
  end.

(** The subscript [v[k]] with a string key. *)
Definition getitem (v : pyval) (k : string) : result pyval :=
  match v with
  | PDict d =>
      match dict_get d k with
      | Some x => Ok x
      | None => Raise (KeyError k)
      end
  | PStr _ | PList _ => Raise TypeError
  end.

(** [len(v)]. *)
Definition py_len (v : pyval) : result nat :=
  match v with
  | PStr s => Ok (String.length s)
  | PList items => Ok (length items)
  | PDict d => Ok (length d)
  end.

(** [list(v.keys())]. *)
Definition py_keys (v : pyval) : result (list string) :=
  match v with
  | PDict d => Ok (map fst d)
  | PStr _ | PList _ => Raise TypeError
  end.

(** The items a [for] loop over [v] visits: the elements of a list, the keys
    of a dictionary, the characters of a string. *)
Definition py_iter (v : pyval) : result (list pyval) :=
  match v with
  | PList items => Ok items
  | PDict d => Ok (map (fun kv => PStr (fst kv)) d)
  | PStr s => Ok (map (fun c => PStr (String c EmptyString)) (list_ascii_of_string s))
  end.

(** [isinstance(v, str)], giving the string. *)
Definition as_str (v : pyval) : result string :=
  match v with
  | PStr s => Ok s
  | PList _ | PDict _ => Raise TypeError
  end.

(** [s.endswith(suffix)]. *)
Definition endswith (s suffix : string) : bool :=
  let n := String.length s in
  let m := String.length suffix in
  (m <=? n)%nat && String.eqb (String.substring (n - m) m s) suffix.

(** [s[-1]]: the last character, none for the empty string. *)
Fixpoint str_last (s : string) : option ascii :=
  match s with
  | EmptyString => None
  | String c EmptyString => Some c
  | String _ s' => str_last s'
  end.

(** ** The module's literals *)

(** [GCP_CONFIG], lines 3-12. *)
Definition GCP_CONFIG : pyval :=
  PDict (dict_display
    [ ("project_id", PStr "hotel-booking-mlops");
      ("bucket_name", PStr "hotel-booking-mlops-data");
      ("dataset_id", PStr "hotel_booking_mlops");
      ("location", PStr "us-central1");
      ("storage_class", PStr "STANDARD");
      ("raw_data_prefix", PStr "raw/");
      ("processed_data_prefix", PStr "processed/");
      ("model_artifacts_prefix", PStr "models/") ]).

(** The display [{'name': n, 'type': t}] of one schema entry. *)
Definition field_display (n t : string) : pyval :=
  PDict (dict_display [ ("name", PStr n); ("type", PStr t) ]).

(** [BIGQUERY_CONFIG], lines 15-50. *)
Definition BIGQUERY_CONFIG : pyval :=
  PDict (dict_display
    [ ("booking_table", PStr "hotel_bookings");
      ("schema", PList
        [ field_display "hotel" "STRING";
          field_display "is_canceled" "INTEGER";
          field_display "lead_time" "INTEGER";
          field_display "arrival_date_year" "INTEGER";
          field_display "arrival_date_month" "STRING";
          field_display "arrival_date_week_number" "INTEGER";
          field_display "arrival_date_day_of_month" "INTEGER";
          field_display "stays_in_weekend_nights" "INTEGER";
          field_display "stays_in_week_nights" "INTEGER";
          field_display "adults" "INTEGER";
          field_display "children" "INTEGER";
          field_display "babies" "INTEGER";
          field_display "meal" "STRING";
          field_display "country" "STRING";
          field_display "market_segment" "STRING";
          field_display "distribution_channel" "STRING";
          field_display "is_repeated_guest" "INTEGER";
          field_display "previous_cancellations" "INTEGER";
          field_display "previous_bookings_not_canceled" "INTEGER";
          field_display "reserved_room_type" "STRING";
          field_display "assigned_room_type" "STRING";
          field_display "booking_changes" "INTEGER";
          field_display "deposit_type" "STRING";
          field_display "agent" "STRING";
          field_display "company" "STRING";
          field_display "days_in_waiting_list" "INTEGER";
          field_display "customer_type" "STRING";
          field_display "adr" "FLOAT";
          field_display "required_car_parking_spaces" "INTEGER";
          field_display "total_of_special_requests" "INTEGER";
          field_display "reservation_status" "STRING";
          field_display "reservation_status_date" "DATE" ]) ]).

(** ** Reading the schema *)

(** [BIGQUERY_CONFIG['schema']]. *)
Definition schema : result pyval := getitem BIGQUERY_CONFIG "schema".

(** [len(BIGQUERY_CONFIG['schema'])]. *)
Definition schema_len : result nat := schema ≫= py_len.

(** The entries [for f in BIGQUERY_CONFIG['schema']] visits; no entry when
    the subscript raises. *)
Definition schema_fields : list pyval :=
  match schema ≫= py_iter with
  | Ok fs => fs
  | Raise _ => []
  end.

(** [f['name']] and [f['type']] as strings. *)
Definition field_name (f : pyval) : result string := getitem f "name" ≫= as_str.
Definition field_type (f : pyval) : result string := getitem f "type" ≫= as_str.

(** [[f['name'] for f in fs]]. *)
Fixpoint names_of (fs : list pyval) : result (list string) :=
  match fs with
  | [] => Ok []
  | f :: fs' => n ← field_name f; ns ← names_of fs'; mret (n :: ns)
  end.

Definition schema_names : result (list string) :=
  s ← schema; fs ← py_iter s; names_of fs.

(** The type tags BigQuery columns of this table may carry. *)
Definition FIELD_TYPES : list string := [ "STRING"; "INTEGER"; "FLOAT"; "DATE" ].

(** The keys of the storage configuration, in the order of the display. *)
Definition STORAGE_KEYS : list string :=
  [ "project_id"; "bucket_name"; "dataset_id"; "location"; "storage_class";
    "raw_data_prefix"; "processed_data_prefix"; "model_artifacts_prefix" ].

Definition PREFIX_KEYS : list string :=
  [ "raw_data_prefix"; "processed_data_prefix"; "model_artifacts_prefix" ].

(** ** Looking a field up by name *)

(** [v == name] for a string [name]: a value that is not a string is unequal
    to every string. *)
Definition py_eq_str (v : pyval) (name : string) : bool :=
  match v with
  | PStr s => String.eqb s name
  | PList _ | PDict _ => false
  end.

(** Modelled from the spec: the source defines no lookup function; this is
    the scenario's "requesting the field named n" as the loop
    [for f in schema: if f['name'] == n: return f['type']] followed by
    [return None].  The subscripts can raise, a miss returns [None]. *)
Fixpoint find_field (fs : list pyval) (name : string) : result (option pyval) :=
  match fs with
  | [] => Ok None
  | f :: fs' =>
      n ← getitem f "name";
      if py_eq_str n name then t ← getitem f "type"; Ok (Some t)
      else find_field fs' name
  end.

Definition lookup_field (name : string) : result (option pyval) :=
  s ← schema; fs ← py_iter s; find_field fs name.

(** ** The module at run time *)

Module Process.

(** The module's namespace: its global names, in binding order. *)
Definition globals : Type := list (string * pyval).

Inductive stmt : Type :=
| Assign (x : string) (v : pyval).

(** The statements of the module body: the docstring and the two
    assignments. *)
Definition module_body : list stmt :=
  [ Assign "__doc__" (PStr "Google Cloud Platform configuration settings.");
    Assign "GCP_CONFIG" GCP_CONFIG;
    Assign "BIGQUERY_CONFIG" BIGQUERY_CONFIG ].

Definition exec_stmt (g : globals) (s : stmt) : globals :=
  match s with
  | Assign x v => dict_setitem g x v
  end.

(** Reading a global name. *)
Definition load_global (x : string) (g : globals) : result pyval :=
  match dict_get g x with
  | Some v => Ok v
  | None => Raise (NameError x)
  end.

End Process.

(** ** A validating loader *)

Module Loader.

Record StorageConfiguration : Type := {
  project_id : string;
  bucket_name : string;
  dataset_id : string;
  location : string;
  storage_class : string;
  raw_data_prefix : string;
  processed_data_prefix : string;
  model_artifacts_prefix : string
}.

Inductive FieldType : Type := STRING | INTEGER | FLOAT | DATE.

Record FieldDescriptor : Type := {
  name : string;
  type : FieldType
}.

Record TableSchemaDescriptor : Type := {
  table_name : string;
  fields : list FieldDescriptor
}.

Record ConfigurationRecord : Type := {
  storage : StorageConfiguration;
  table : TableSchemaDescriptor
}.

(** The data before validation: the settings, the table name, and the
    fields with their type tags still strings, as the source has them. *)
Record RawConfiguration : Type := {
  raw_storage : StorageConfiguration;
  raw_table_name : string;
  raw_fields : list (string * string)
}.

Inductive error : Type := ConfigurationError.

Definition type_tag (t : FieldType) : string :=
  match t with
  | STRING => "STRING"
  | INTEGER => "INTEGER"
  | FLOAT => "FLOAT"
  | DATE => "DATE"
  end.

Definition parse_type (tag : string) : option FieldType :=
  if String.eqb tag "STRING" then Some STRING
  else if String.eqb tag "INTEGER" then Some INTEGER
  else if String.eqb tag "FLOAT" then Some FLOAT
  else if String.eqb tag "DATE" then Some DATE
  else None.

(** The string settings that must not be empty: the eight storage settings
    and the table name. *)
Definition required_settings (raw : RawConfiguration) : list string :=
  let s := raw_storage raw in
  [ project_id s; bucket_name s; dataset_id s; location s; storage_class s;
    raw_data_prefix s; processed_data_prefix s; model_artifacts_prefix s;
    raw_table_name raw ].

Definition is_empty (s : string) : bool :=
  match s with
  | EmptyString => true
  | String _ _ => false
  end.

Fixpoint mem_string (x : string) (l : list string) : bool :=
  match l with
  | [] => false
  | y :: l' => String.eqb y x || mem_string x l'
  end.

Fixpoint has_duplicate (l : list string) : bool :=
  match l with
  | [] => false
  | x :: l' => mem_string x l' || has_duplicate l'
  end.

Fixpoint parse_fields (fs : list (string * string)) : option (list FieldDescriptor) :=
  match fs with
  | [] => Some []
  | (n, tag) :: fs' =>
      match parse_type tag, parse_fields fs' with
      | Some t, Some ds => Some ({| name := n; type := t |} :: ds)
      | _, _ => None
      end
  end.

(** Modelled from the spec: the source has no loader and raises no
    [ConfigurationError]; this is the validation contract of the spec's
    section 4.1: construction fails when a field name is duplicated, a
    field type is outside the enumeration, or a required string setting is
    empty, and otherwise gives the record. *)
Definition construct (raw : RawConfiguration) : error + ConfigurationRecord :=
  if existsb is_empty (required_settings raw) then inl ConfigurationError
  else if has_duplicate (map fst (raw_fields raw)) then inl ConfigurationError
  else
    match parse_fields (raw_fields raw) with
    | None => inl ConfigurationError
    | Some ds =>
        inr {| storage := raw_storage raw;
               table := {| table_name := raw_table_name raw; fields := ds |} |}
    end.

(** The accessors of a constructed record. *)
Definition getStorageConfig (r : ConfigurationRecord) : StorageConfiguration :=
  storage r.

Definition getTableSchema (r : ConfigurationRecord) : TableSchemaDescriptor :=
  table r.

(** What the claim calls malformed data. *)
Definition duplicated_name (raw : RawConfiguration) : Prop :=
  exists (i j : nat) (n : string),
    i <> j /\ map fst (raw_fields raw) !! i = Some n
           /\ map fst (raw_fields raw) !! j = Some n.

Definition type_outside_enumeration (raw : RawConfiguration) : Prop :=
  exists (i : nat) (n tag : string),
    raw_fields raw !! i = Some (n, tag) /\ ~ In tag FIELD_TYPES.

Definition empty_setting (raw : RawConfiguration) : Prop :=
  exists (i : nat), required_settings raw !! i = Some EmptyString.

Definition malformed (raw : RawConfiguration) : Prop :=
  duplicated_name raw \/ type_outside_enumeration raw \/ empty_setting raw.

(** Reading the raw data off the module's two dictionaries. *)
Fixpoint raw_fields_of (fs : list pyval) : result (list (string * string)) :=
  match fs with
  | [] => Ok []
  | f :: fs' =>
      n ← field_name f; t ← field_type f; rest ← raw_fields_of fs';
      mret ((n, t) :: rest)
  end.

Definition setting (k : string) : result string := getitem GCP_CONFIG k ≫= as_str.

Definition raw_of_module : result RawConfiguration :=
  p ← setting "project_id";
  b ← setting "bucket_name";
  d ← setting "dataset_id";
  l ← setting "location";
  c ← setting "storage_class";
  r ← setting "raw_data_prefix";
  q ← setting "processed_data_prefix";
  m ← setting "model_artifacts_prefix";
  t ← getitem BIGQUERY_CONFIG "booking_table" ≫= as_str;
  s ← schema;
  fs ← py_iter s;
  rfs ← raw_fields_of fs;
  mret {| raw_storage :=
            {| project_id := p; bucket_name := b; dataset_id := d; location := l;
               storage_class := c; raw_data_prefix := r;
               processed_data_prefix := q; model_artifacts_prefix := m |};
          raw_table_name := t;
          raw_fields := rfs |}.

End Loader.

(** ** JSON text of a value, and reading it back *)

Module Json.

Definition quote : ascii := "034"%char.
Definition backslash : ascii := "092"%char.

Definition hex_digits : list ascii :=
  list_ascii_of_string "0123456789abcdef".

Definition hex_digit (n : nat) : ascii := nth n hex_digits "0"%char.

(** The JSON text of one character inside a string: the short escapes,
    the character itself when it is printable ASCII, and a [\u00XX] escape
    otherwise. *)
Definition escape_char (c : ascii) : string :=
  let n := nat_of_ascii c in
  if Ascii.eqb c quote then String backslash (String quote EmptyString)
  else if Ascii.eqb c backslash then String backslash (String backslash EmptyString)
  else if Nat.eqb n 10 then String backslash "n"
  else if Nat.eqb n 13 then String backslash "r"
  else if Nat.eqb n 9 then String backslash "t"
  else if Nat.eqb n 8 then String backslash "b"
  else if Nat.eqb n 12 then String backslash "f"
  else if (32 <=? n)%nat && (n <=? 126)%nat then String c EmptyString
  else String backslash
         (String "u" (String "0" (String "0"
            (String (hex_digit (n / 16)) (String (hex_digit (n mod 16)) EmptyString))))).

Fixpoint escape (s : string) : string :=
  match s with
  | EmptyString => EmptyString
  | String c s' => escape_char c +:+ escape s'
  end.

Definition dumps_str (s : string) : string :=
  String quote (escape s +:+ String quote EmptyString).

(** Modelled from the spec: the source serializes nothing; this is the JSON
    text of a value in the layout of Python's [json.dumps]: items separated
    by a comma and a space, keys from values by a colon and a space. *)
Fixpoint dumps (v : pyval) : string :=
  match v with
  | PStr s => dumps_str s
  | PList items => "[" +:+ String.concat ", " (map dumps items) +:+ "]"
  | PDict entries =>
      "{" +:+ String.concat ", "
                (map (fun kv => dumps_str (fst kv) +:+ ": " +:+ dumps (snd kv)) entries)
          +:+ "}"
  end.

Definition is_ws (c : ascii) : bool :=
  let n := nat_of_ascii c in
  Nat.eqb n 32 || Nat.eqb n 9 || Nat.eqb n 10 || Nat.eqb n 13.

Fixpoint skip_ws (s : string) : string :=
  match s with
  | EmptyString => EmptyString
  | String c s' => if is_ws c then skip_ws s' else s
  end.

Definition hex_value (c : ascii) : option nat :=
  let n := nat_of_ascii c in
  if (48 <=? n)%nat && (n <=? 57)%nat then Some (n - 48)
  else if (97 <=? n)%nat && (n <=? 102)%nat then Some (n - 87)
  else if (65 <=? n)%nat && (n <=? 70)%nat then Some (n - 55)
  else None.

(** The character a short escape stands for. *)
Definition unescape (e : ascii) : option ascii :=
  if Ascii.eqb e quote then Some quote
  else if Ascii.eqb e backslash then Some backslash
  else if Ascii.eqb e "/" then Some "/"%char
  else if Ascii.eqb e "n" then Some (ascii_of_nat 10)
  else if Ascii.eqb e "r" then Some (ascii_of_nat 13)
  else if Ascii.eqb e "t" then Some (ascii_of_nat 9)
  else if Ascii.eqb e "b" then Some (ascii_of_nat 8)
  else if Ascii.eqb e "f" then Some (ascii_of_nat 12)
  else None.

(** The four hexadecimal digits of a [\u] escape as a character; a code
    point above 255 has no character in this embedding. *)
Definition unicode_escape (h1 h2 h3 h4 : ascii) : option ascii :=
  match hex_value h1, hex_value h2, hex_value h3, hex_value h4 with
  | Some a, Some b, Some c, Some d =>
      let code := ((a * 16 + b) * 16 + c) * 16 + d in
      if (code <? 256)%nat then Some (ascii_of_nat code) else None
  | _, _, _, _ => None
  end.

(** The rest of a string literal, after its opening quote: the decoded
    string and the text after the closing quote. *)
Fixpoint scan_string (s : string) : option (string * string) :=
  match s with
  | EmptyString => None
  | String c s' =>
      if Ascii.eqb c quote then Some (EmptyString, s')
      else if Ascii.eqb c backslash then
        match s' with
        | EmptyString => None
        | String e s'' =>
            if Ascii.eqb e "u" then
              match s'' with
              | String h1 (String h2 (String h3 (String h4 t))) =>
                  match unicode_escape h1 h2 h3 h4, scan_string t with
                  | Some d, Some (r, rest) => Some (String d r, rest)
                  | _, _ => None
                  end
              | _ => None
              end
            else
              match unescape e, scan_string s'' with
              | Some d, Some (r, rest) => Some (String d r, rest)
              | _, _ => None
              end
        end
      else if (nat_of_ascii c <? 32)%nat then None
      else
        match scan_string s' with
        | Some (r, rest) => Some (String c r, rest)
        | None => None
        end
  end.

(** A value, the elements of an array after its opening bracket, and the
    members of an object after its opening brace.  The fuel bounds the
    nesting of calls; [loads] gives one unit per character. *)
Fixpoint parse_value (fuel : nat) (s : string) : option (pyval * string) :=
  match fuel with
  | O => None
  | S fuel' =>
      match skip_ws s with
      | String c r =>
          if Ascii.eqb c quote then
            match scan_string r with
            | Some (t, rest) => Some (PStr t, rest)
            | None => None
            end
          else if Ascii.eqb c "[" then
            match skip_ws r with
            | String "]" rest => Some (PList [], rest)
            | _ =>
                match parse_elements fuel' r with
                | Some (vs, rest) => Some (PList vs, rest)
                | None => None
                end
            end
          else if Ascii.eqb c "{" then
            match skip_ws r with
            | String "}" rest => Some (PDict [], rest)
            | _ =>
                match parse_members fuel' r with
                | Some (kvs, rest) => Some (PDict (dict_display kvs), rest)
                | None => None
                end
            end
          else None
      | EmptyString => None
      end
  end
with parse_elements (fuel : nat) (s : string) : option (list pyval * string) :=
  match fuel with
  | O => None
  | S fuel' =>
      match parse_value fuel' s with
      | Some (v, rest) =>
          match skip_ws rest with
          | String "," rest' =>
              match parse_elements fuel' rest' with
              | Some (vs, rest'') => Some (v :: vs, rest'')
              | None => None
              end
          | String "]" rest' => Some ([v], rest')
          | _ => None
          end
      | None => None
      end
  end
with parse_members (fuel : nat) (s : string) : option (list (string * pyval) * string) :=
  match fuel with
  | O => None
  | S fuel' =>
      match skip_ws s with
      | String c r =>
          if Ascii.eqb c quote then
            match scan_string r with
            | Some (k, rest) =>
                match skip_ws rest with
                | String ":" rest' =>
                    match parse_value fuel' rest' with
                    | Some (v, rest'') =>
                        match skip_ws rest'' with
                        | String "," rest3 =>
                            match parse_members fuel' rest3 with
                            | Some (kvs, rest4) => Some ((k, v) :: kvs, rest4)
                            | None => None
                            end
                        | String "}" rest3 => Some ([(k, v)], rest3)
                        | _ => None
                        end
                    | None => None
                    end
                | _ => None
                end
            | None => None
            end
          else None
      | EmptyString => None
      end
  end.

(** Modelled from the spec: the source parses nothing; this reads a JSON
    text whose values are strings, arrays and objects, as [json.loads]
    does: the members of an object go through [dict], and text after the
    value other than white space is an error. *)
Definition loads (s : string) : result pyval :=
  match parse_value (S (String.length s)) s with
  | Some (v, rest) =>
      match skip_ws rest with
      | EmptyString => Ok v
      | String _ _ => Raise JSONDecodeError
      end
  | None => Raise JSONDecodeError
  end.

(** The fuel that reading the text of [v] back takes: one unit per value and
    one per element or member. *)
Fixpoint size (v : pyval) : nat :=
  match v with
  | PStr _ => 1
  | PList items => S (list_sum (map (fun x => S (size x)) items))
  | PDict entries => S (list_sum (map (fun kv => S (size (snd kv))) entries))
  end.

(** The values Python can build: no dictionary, at any depth, holds a key
    twice. *)
Fixpoint well_formed (v : pyval) : bool :=
  match v with
  | PStr _ => true
  | PList items => forallb well_formed items
  | PDict entries =>
      bool_decide (NoDup (map fst entries))
      && forallb (fun kv => well_formed (snd kv)) entries
  end.

(** The text of a value opens with a quote, a bracket or a brace. *)
Definition opener (c : ascii) : Prop := c = quote \/ c = "["%char \/ c = "{"%char.

(** Reading the text of [v] gives [v] back and leaves what follows it. *)
Definition parses (v : pyval) : Prop :=
  forall (fuel : nat) (rest : string),
    size v <= fuel -> parse_value fuel (dumps v +:+ rest) = Some (v, rest).

(** The Configuration Record: both dictionaries under their module names. *)
Definition configuration_record : pyval :=
  PDict (dict_display
    [ ("GCP_CONFIG", GCP_CONFIG); ("BIGQUERY_CONFIG", BIGQUERY_CONFIG) ]).

End Json.

(** ** Running the module body in a namespace that holds names *)

(** The module body run from a namespace [g]: [import] runs it on the
    namespace the import system prepared, [importlib.reload] on the module's
    current one. *)
Definition exec_body (g : Process.globals) : Process.globals :=
  fold_left Process.exec_stmt Process.module_body g.

(** The names the module body assigns. *)
Definition BODY_NAMES : list string := [ "__doc__"; "GCP_CONFIG"; "BIGQUERY_CONFIG" ].

(** ** Objects, references and the steps of a process *)

Module Runtime.

(** A dictionary is an object that is shared by reference: a name of the
    namespace holds a reference into the heap, and so does whoever was handed
    the dictionary.  The values nested in an object are kept inside it; the
    module's literals share none of them. *)
Definition ref : Type := nat.

Record state : Type := {
  heap : list pyval;
  names : list (string * ref)
}.

Fixpoint bind (ns : list (string * ref)) (x : string) (r : ref) : list (string * ref) :=
  match ns with
  | [] => [(x, r)]
  | (y, q) :: ns' => if String.eqb y x then (y, r) :: ns' else (y, q) :: bind ns' x r
  end.

Fixpoint lookup_name (ns : list (string * ref)) (x : string) : option ref :=
  match ns with
  | [] => None
  | (y, q) :: ns' => if String.eqb y x then Some q else lookup_name ns' x
  end.

Definition refs_below (n : nat) (ns : list (string * ref)) : Prop :=
  Forall (fun p => snd p < n) ns.

(** Every reference a name holds is a reference to an object. *)
Definition well_formed (st : state) : bool :=
  forallb (fun p => (snd p <? length (heap st))%nat) (names st).

(** [x = v] at module level: [v] is a new object and [x] refers to it. *)
Definition assign (x : string) (v : pyval) (st : state) : state :=
  {| heap := heap st ++ [v]; names := bind (names st) x (length (heap st)) |}.

Definition exec_stmt (st : state) (s : Process.stmt) : state :=
  match s with
  | Process.Assign x v => assign x v st
  end.

(** The module body, run in the namespace of [st]. *)
Definition exec_module (st : state) : state :=
  fold_left exec_stmt Process.module_body st.

(** Reading a global name gives the object it refers to: its reference and
    its contents at that moment. *)
Definition read_global (x : string) (st : state) : result (ref * pyval) :=
  match lookup_name (names st) x with
  | Some r =>
      match heap st !! r with
      | Some v => Ok (r, v)
      | None => Raise (NameError x)
      end
  | None => Raise (NameError x)
  end.

(** Modelled from the spec: the source has no accessor functions; these are
    the two read-only accessors of the spec's contract, each returning the
    object its module global refers to. *)
Definition getStorageConfig (st : state) : result (ref * pyval) :=
  read_global "GCP_CONFIG" st.

Definition getTableSchema (st : state) : result (ref * pyval) :=
  read_global "BIGQUERY_CONFIG" st.

(** [obj[k] = v] through a reference: a dictionary takes the item, any other
    object raises [TypeError] and stays as it is. *)
Definition set_item (r : ref) (k : string) (v : pyval) (st : state) : state :=
  match heap st !! r with
  | Some (PDict d) =>
      {| heap := <[r := PDict (dict_setitem d k v)]> (heap st); names := names st |}
  | _ => st
  end.

(** What the code of a process can do with the module: call an accessor,
    assign an item of an object it holds a reference to, rebind a global of
    the module, reload the module. *)
Inductive op : Type :=
| CallGetStorageConfig
| CallGetTableSchema
| SetItem (r : ref) (k : string) (v : pyval)
| Rebind (x : string) (v : pyval)
| Reload.

Definition step (st : state) (o : op) : state :=
  match o with
  | CallGetStorageConfig | CallGetTableSchema => st
  | SetItem r k v => set_item r k v st
  | Rebind x v => assign x v st
  | Reload => exec_module st
  end.

Definition run (ops : list op) (st : state) : state := fold_left step ops st.


(** A namespace as [exec] hands it to the module body, and the state once
    the body has run in it. *)
Definition prepared : state :=
  {| heap := [ PStr "config.gcp_config"; PDict [] ];
     names := [ ("__name__", 0); ("__builtins__", 1) ] |}.

Definition loaded : state := exec_module prepared.

End Runtime.

(** ** Shapes of names *)

Definition is_lower (c : ascii) : bool :=
  let n := nat_of_ascii c in (97 <=? n)%nat && (n <=? 122)%nat.

Fixpoint str_forall (p : ascii -> bool) (s : string) : bool :=
  match s with
  | EmptyString => true
  | String c s' => p c && str_forall p s'
  end.

(** A lowercase letter followed by lowercase letters and underscores. *)
Definition is_snake_name (s : string) : bool :=
  match s with
  | EmptyString => false
  | String c s' => is_lower c && str_forall (fun x => is_lower x || Ascii.eqb x "_") s'
  end.

(** [s.replace(a, b)] for one-character strings [a] and [b]. *)
Fixpoint str_replace_char (a b : ascii) (s : string) : string :=
  match s with
  | EmptyString => EmptyString
  | String c s' => String (if Ascii.eqb c a then b else c) (str_replace_char a b s')
  end.

(** * Properties of the schema literal *)

Section Schema.

Lemma schema_is_list : schema = Ok (PList schema_fields).
Proof. reflexivity. Qed.

Lemma schema_names_of_fields : schema_names = names_of schema_fields.
Proof. reflexivity. Qed.

(** The names a comprehension collects sit at the positions of their
    entries. *)
Lemma names_of_lookup (fs : list pyval) (ns : list string) :
  names_of fs = Ok ns ->
  forall (i : nat) (f : pyval), fs !! i = Some f ->
    exists n, field_name f = Ok n /\ ns !! i = Some n.
Proof.
  revert ns. induction fs as [|f0 fs IH]; intros ns Hns i f Hi.
  - discriminate.
  - cbn [names_of] in Hns.
    destruct (field_name f0) as [n0|e] eqn:Hn0; [|discriminate].
    cbn in Hns. destruct (names_of fs) as [ns'|e] eqn:Hns'; [|discriminate].
    cbn in Hns. injection Hns as <-.
    destruct i as [|i]; cbn in Hi.
    + injection Hi as <-. exists n0. split; [exact Hn0 | reflexivity].
    + destruct (IH ns' eq_refl i f Hi) as (n & Hn & Hl).
      exists n. split; [exact Hn | exact Hl].
Qed.

Lemma names_of_length (fs : list pyval) (ns : list string) :
  names_of fs = Ok ns -> length ns = length fs.
Proof.
  revert ns. induction fs as [|f0 fs IH]; intros ns Hns.
  - injection Hns as <-. reflexivity.
  - cbn [names_of] in Hns.
    destruct (field_name f0) as [n0|e]; [|discriminate].
    cbn in Hns. destruct (names_of fs) as [ns'|e]; [|discriminate].
    cbn in Hns. injection Hns as <-. cbn. f_equal. apply IH. reflexivity.
Qed.

Lemma field_name_str (f : pyval) (n : string) :
  field_name f = Ok n -> getitem f "name" = Ok (PStr n).
Proof.
  unfold field_name. destruct (getitem f "name") as [v|e]; [|discriminate].
  cbn. destruct v; cbn; congruence.
Qed.

(** A name that no entry carries is not found, and no subscript raises on
    the way. *)
Lemma find_field_miss (fs : list pyval) (ns : list string) (n : string) :
  names_of fs = Ok ns -> ~ In n ns -> find_field fs n = Ok None.
Proof.
  revert ns. induction fs as [|f0 fs IH]; intros ns Hns Hn.
  - reflexivity.
  - cbn [names_of] in Hns.
    destruct (field_name f0) as [n0|e] eqn:Hn0; [|discriminate].
    cbn in Hns. destruct (names_of fs) as [ns'|e] eqn:Hns'; [|discriminate].
    cbn in Hns. injection Hns as <-.
    cbn [find_field]. rewrite (field_name_str _ _ Hn0). cbn.
    destruct (String.eqb_spec n0 n) as [->|Hne].
    + exfalso. apply Hn. left. reflexivity.
    + apply (IH ns' eq_refl). intros Hin. apply Hn. right. exact Hin.
Qed.

Lemma schema_names_nodup :
  exists ns, schema_names = Ok ns /\ NoDup ns.
Proof.
  eexists. split; [reflexivity|]. apply (bool_decide_unpack _). vm_compute. exact I.
Qed.

End Schema.

(** C1, as the code has it: the schema of the [hotel_bookings] table has
    exactly 32 field descriptors: [len(BIGQUERY_CONFIG['schema'])] is 32. *)
Theorem schema_has_32_fields :
  getitem BIGQUERY_CONFIG "booking_table" = Ok (PStr "hotel_bookings")
  /\ schema_len = Ok 32
  /\ length schema_fields = 32.
Proof. repeat split; reflexivity. Qed.

(** C1 as stated fails: the length of the schema list is not 31. *)
Lemma schema_len_is_not_31 : schema_len <> Ok 31.
Proof. intros H. vm_compute in H. discriminate H. Qed.

(** C2: any two entries at different positions of the schema list have
    different [name] strings; the list of names has no duplicate. *)
Theorem field_names_pairwise_distinct (i j : nat) (f g : pyval) :
  schema_fields !! i = Some f ->
  schema_fields !! j = Some g ->
  i <> j ->
  exists n m, getitem f "name" = Ok (PStr n) /\ getitem g "name" = Ok (PStr m) /\ n <> m.
Proof.
  intros Hi Hj Hij.
  destruct schema_names_nodup as (ns & Hns & Hnd).
  rewrite schema_names_of_fields in Hns.
  destruct (names_of_lookup _ _ Hns i f Hi) as (n & Hn & Hni).
  destruct (names_of_lookup _ _ Hns j g Hj) as (m & Hm & Hmj).
  exists n, m. split; [apply field_name_str, Hn|]. split; [apply field_name_str, Hm|].
  intros ->. apply Hij. exact (NoDup_lookup ns i j m Hnd Hni Hmj).
Qed.

Lemma field_names_pairwise_distinct_witness :
  exists n m,
    getitem (field_display "hotel" "STRING") "name" = Ok (PStr n)
    /\ getitem (field_display "reservation_status" "STRING") "name" = Ok (PStr m)
    /\ n <> m.
Proof.
  apply (field_names_pairwise_distinct 0 30); [reflexivity | reflexivity | lia].
Defined.

(** C3: every entry of the schema list has a [type] string that is one of
    STRING, INTEGER, FLOAT, DATE. *)
Theorem field_types_in_enumeration :
  schema = Ok (PList schema_fields)
  /\ Forall (fun f => exists t, getitem f "type" = Ok (PStr t) /\ In t FIELD_TYPES)
            schema_fields.
Proof.
  split; [reflexivity|].
  unfold schema_fields. cbn.
  repeat (first [ apply List.Forall_nil
                | apply List.Forall_cons; [eexists; split; [reflexivity | cbn; tauto] |] ]).
Qed.

(** C4: looking a field up by name gives FLOAT for [adr], DATE for
    [reservation_status_date], and [None], with no exception raised, for
    [nonexistent_field] and for every name the schema does not list. *)
Theorem lookup_field_scenario :
  lookup_field "adr" = Ok (Some (PStr "FLOAT"))
  /\ lookup_field "reservation_status_date" = Ok (Some (PStr "DATE"))
  /\ lookup_field "nonexistent_field" = Ok None
  /\ forall (n : string) (ns : list string),
       schema_names = Ok ns -> ~ In n ns -> lookup_field n = Ok None.
Proof.
  split; [reflexivity|]. split; [reflexivity|]. split; [reflexivity|].
  intros n ns Hns Hn. rewrite schema_names_of_fields in Hns.
  unfold lookup_field. rewrite schema_is_list. cbn.
  exact (find_field_miss _ _ _ Hns Hn).
Qed.

Lemma lookup_field_scenario_witness : lookup_field "no_such_column" = Ok None.
Proof.
  refine (proj2 (proj2 (proj2 lookup_field_scenario)) "no_such_column" _ eq_refl _).
  cbn. intros H.
  repeat (destruct H as [H|H]; [discriminate H|]). exact H.
Defined.

(** C7: each of the three prefixes of the storage configuration is a
    non-empty string whose last character is the path separator [/]. *)
Theorem prefixes_end_in_separator :
  Forall (fun k => exists s,
            getitem GCP_CONFIG k = Ok (PStr s)
            /\ s <> EmptyString
            /\ str_last s = Some "/"%char
            /\ endswith s "/" = true)
         PREFIX_KEYS.
Proof.
  repeat (first [ apply List.Forall_nil
                | apply List.Forall_cons;
                  [eexists; split; [reflexivity|]; split; [discriminate|];
                   split; reflexivity |] ]).
Qed.

(** C9: the schema list has exactly 32 entries, and every entry is a
    dictionary whose keys are exactly [name] and [type], both bound to
    strings. *)
Theorem schema_entries_shape :
  schema = Ok (PList schema_fields)
  /\ length schema_fields = 32
  /\ Forall (fun f => py_keys f = Ok [ "name"; "type" ]
                      /\ exists n t, getitem f "name" = Ok (PStr n)
                                     /\ getitem f "type" = Ok (PStr t))
            schema_fields.
Proof.
  split; [reflexivity|]. split; [reflexivity|].
  unfold schema_fields. cbn.
  repeat (first [ apply List.Forall_nil
                | apply List.Forall_cons;
                  [split; [reflexivity | do 2 eexists; split; reflexivity] |] ]).
Qed.

(** C10: the storage configuration has exactly the eight keys of the data
    model, and each is bound to a non-empty string. *)
Theorem storage_values_nonempty :
  py_keys GCP_CONFIG = Ok STORAGE_KEYS
  /\ Forall (fun k => exists s, getitem GCP_CONFIG k = Ok (PStr s) /\ s <> EmptyString)
            STORAGE_KEYS.
Proof.
  split; [reflexivity|].
  repeat (first [ apply List.Forall_nil
                | apply List.Forall_cons;
                  [eexists; split; [reflexivity | discriminate] |] ]).
Qed.

(** * The accessors in a running process *)

Section Accessors.
Import Runtime.

Lemma lookup_name_bind_ne (ns : list (string * ref)) (x y : string) (r : ref) :
  x <> y -> lookup_name (bind ns x r) y = lookup_name ns y.
Proof.
  intros Hxy. induction ns as [|[z q] ns IH]; cbn [bind lookup_name].
  - destruct (String.eqb_spec x y) as [Heq|_]; [contradiction | reflexivity].
  - destruct (String.eqb_spec z x) as [->|Hzx]; cbn [lookup_name].
    + destruct (String.eqb_spec x y) as [Heq|_]; [contradiction | reflexivity].
    + rewrite IH. reflexivity.
Qed.

Lemma lookup_name_bind_eq (ns : list (string * ref)) (x : string) (r : ref) :
  lookup_name (bind ns x r) x = Some r.
Proof.
  induction ns as [|[z q] ns IH]; cbn [bind lookup_name].
  - rewrite String.eqb_refl. reflexivity.
  - destruct (String.eqb_spec z x) as [->|Hzx]; cbn [lookup_name].
    + rewrite String.eqb_refl. reflexivity.
    + destruct (String.eqb_spec z x) as [Heq|_]; [contradiction | exact IH].
Qed.

Lemma well_formed_refs (st : state) :
  well_formed st = true <-> refs_below (length (heap st)) (names st).
Proof.
  unfold well_formed, refs_below. rewrite forallb_forall, Forall_forall.
  split; intros H p Hp.
  - apply Nat.ltb_lt, H, list_elem_of_In, Hp.
  - apply Nat.ltb_lt, H, list_elem_of_In, Hp.
Qed.

Lemma refs_below_mono (n m : nat) (ns : list (string * ref)) :
  n <= m -> refs_below n ns -> refs_below m ns.
Proof.
  unfold refs_below.
  intros Hnm H. eapply Forall_impl; [exact H|]. cbn beta. intros p Hp. lia.
Qed.

Lemma refs_below_bind (n : nat) (ns : list (string * ref)) (x : string) (r : ref) :
  r < n -> refs_below n ns -> refs_below n (bind ns x r).
Proof.
  unfold refs_below.
  intros Hr. induction ns as [|[z q] ns IH]; intros Hns; cbn [bind].
  - constructor; [exact Hr | constructor].
  - inversion Hns as [|? ? Hq Hrest]; subst.
    destruct (String.eqb z x); constructor;
      [exact Hr | exact Hrest | exact Hq | exact (IH Hrest)].
Qed.

Lemma refs_below_lookup (n : nat) (ns : list (string * ref)) (x : string) (r : ref) :
  refs_below n ns -> lookup_name ns x = Some r -> r < n.
Proof.
  unfold refs_below.
  induction ns as [|[z q] ns IH]; intros Hns; cbn [lookup_name]; [discriminate|].
  inversion Hns as [|? ? Hq Hrest]; subst.
  destruct (String.eqb z x); [intros [= <-]; exact Hq | apply IH; exact Hrest].
Qed.

Lemma assign_well_formed (x : string) (v : pyval) (st : state) :
  well_formed st = true -> well_formed (assign x v st) = true.
Proof.
  rewrite !well_formed_refs. unfold assign. cbn [heap names].
  rewrite length_app. cbn [length]. intros H.
  apply refs_below_bind; [lia|]. apply (refs_below_mono (length (heap st))); [lia | exact H].
Qed.

(** Binding another name to a new object leaves what a name refers to. *)
Lemma read_global_assign_ne (x y : string) (v : pyval) (st : state) :
  well_formed st = true -> x <> y ->
  read_global y (assign x v st) = read_global y st.
Proof.
  rewrite well_formed_refs. intros Hwf Hxy. unfold read_global, assign. cbn [heap names].
  rewrite lookup_name_bind_ne by exact Hxy.
  destruct (lookup_name (names st) y) as [r|] eqn:Hr; [|reflexivity].
  rewrite lookup_app_l by exact (refs_below_lookup _ _ _ _ Hwf Hr). reflexivity.
Qed.

Lemma read_global_assign_eq (x : string) (v : pyval) (st : state) :
  read_global x (assign x v st) = Ok (length (heap st), v).
Proof.
  unfold read_global, assign. cbn [heap names].
  rewrite lookup_name_bind_eq, lookup_app_r by lia.
  rewrite Nat.sub_diag. reflexivity.
Qed.






(** The body binds [GCP_CONFIG] to a new object that holds the literal. *)
Lemma exec_module_storage (st : state) :
  well_formed st = true ->
  getStorageConfig (exec_module st) = Ok (S (length (heap st)), GCP_CONFIG).
Proof.
  intros Hwf. unfold exec_module, getStorageConfig. cbn [fold_left Process.module_body exec_stmt].
  rewrite read_global_assign_ne;
    [| apply assign_well_formed, assign_well_formed, Hwf | discriminate].
  rewrite read_global_assign_eq. cbn [assign heap]. rewrite length_app. cbn [length].
  f_equal. f_equal. lia.
Qed.

End Accessors.




(** * The validating loader *)

Section Validation.
Import Loader.

Lemma mem_string_In (x : string) (l : list string) :
  mem_string x l = true <-> In x l.
Proof.
  induction l as [|y l IH]; cbn.
  - split; [discriminate | tauto].
  - rewrite orb_true_iff, IH, String.eqb_eq. tauto.
Qed.

Lemma In_lookup (x : string) (l : list string) :
  In x l <-> exists i, l !! i = Some x.
Proof.
  induction l as [|y l IH]; cbn.
  - split; [tauto | intros [i Hi]; discriminate].
  - rewrite IH. split.
    + intros [->|[i Hi]]; [exists 0; reflexivity | exists (S i); exact Hi].
    + intros [[|i] Hi]; cbn in Hi; [left; congruence | right; exists i; exact Hi].
Qed.

Lemma has_duplicate_spec (l : list string) :
  has_duplicate l = true <->
  exists (i j : nat) (n : string), i <> j /\ l !! i = Some n /\ l !! j = Some n.
Proof.
  induction l as [|x l IH]; cbn.
  - split; [discriminate | intros (i & j & n & _ & Hi & _); discriminate].
  - rewrite orb_true_iff, IH, mem_string_In, In_lookup. split.
    + intros [[j Hj] | (i & j & n & Hij & Hi & Hj)].
      * exists 0, (S j), x. split; [lia | split; [reflexivity | exact Hj]].
      * exists (S i), (S j), n. split; [lia | split; assumption].
    + intros (i & j & n & Hij & Hi & Hj).
      destruct i as [|i], j as [|j]; cbn in Hi, Hj.
      * lia.
      * left. exists j. injection Hi as ->. exact Hj.
      * left. exists i. injection Hj as ->. exact Hi.
      * right. exists i, j, n. split; [lia | split; assumption].
Qed.

Lemma existsb_is_empty_spec (l : list string) :
  existsb is_empty l = true <-> exists i, l !! i = Some EmptyString.
Proof.
  induction l as [|x l IH]; cbn.
  - split; [discriminate | intros [i Hi]; discriminate].
  - rewrite orb_true_iff, IH. split.
    + intros [Hx | [i Hi]].
      * exists 0. destruct x; [reflexivity | discriminate].
      * exists (S i). exact Hi.
    + intros [[|i] Hi]; cbn in Hi.
      * left. injection Hi as ->. reflexivity.
      * right. exists i. exact Hi.
Qed.

Ltac case_tag tag s := destruct (String.eqb_spec tag s) as [->|?].

Lemma parse_type_some (tag : string) (t : FieldType) :
  parse_type tag = Some t -> type_tag t = tag.
Proof.
  unfold parse_type.
  case_tag tag "STRING"; [intros [= <-]; reflexivity|].
  case_tag tag "INTEGER"; [intros [= <-]; reflexivity|].
  case_tag tag "FLOAT"; [intros [= <-]; reflexivity|].
  case_tag tag "DATE"; [intros [= <-]; reflexivity|].
  discriminate.
Qed.

Lemma parse_type_none (tag : string) :
  parse_type tag = None <-> ~ In tag FIELD_TYPES.
Proof.
  unfold parse_type, FIELD_TYPES.
  case_tag tag "STRING"; [split; [discriminate | intros H; exfalso; apply H; cbn; tauto]|].
  case_tag tag "INTEGER"; [split; [discriminate | intros H; exfalso; apply H; cbn; tauto]|].
  case_tag tag "FLOAT"; [split; [discriminate | intros H; exfalso; apply H; cbn; tauto]|].
  case_tag tag "DATE"; [split; [discriminate | intros H; exfalso; apply H; cbn; tauto]|].
  split; [|reflexivity]. intros _ H. cbn in H.
  repeat (destruct H as [H|H]; [congruence|]). exact H.
Qed.

Lemma parse_fields_none (fs : list (string * string)) :
  parse_fields fs = None <->
  exists (i : nat) (n tag : string), fs !! i = Some (n, tag) /\ ~ In tag FIELD_TYPES.
Proof.
  induction fs as [|[n0 tag0] fs IH]; cbn [parse_fields].
  - split; [discriminate | intros (i & n & tag & Hi & _); discriminate].
  - destruct (parse_type tag0) as [t0|] eqn:Ht.
    + destruct (parse_fields fs) as [ds|] eqn:Hfs.
      * split; [discriminate|]. intros (i & n & tag & Hi & Htag).
        destruct i as [|i]; cbn in Hi.
        -- injection Hi as <- <-. apply parse_type_none in Htag. congruence.
        -- assert (@Some (list FieldDescriptor) ds = None) as HN; [|discriminate HN].
           apply IH. exists i, n, tag. split; assumption.
      * split; [|reflexivity]. intros _.
        destruct (proj1 IH eq_refl) as (i & n & tag & Hi & Htag).
        exists (S i), n, tag. split; assumption.
    + split; [|reflexivity]. intros _. exists 0, n0, tag0.
      split; [reflexivity | apply parse_type_none; exact Ht].
Qed.

Lemma parse_fields_some (fs : list (string * string)) (ds : list FieldDescriptor) :
  parse_fields fs = Some ds ->
  map (fun d => (name d, type_tag (type d))) ds = fs.
Proof.
  revert ds. induction fs as [|[n0 tag0] fs IH]; intros ds; cbn [parse_fields].
  - intros [= <-]. reflexivity.
  - destruct (parse_type tag0) as [t0|] eqn:Ht; [|discriminate].
    destruct (parse_fields fs) as [ds'|] eqn:Hfs; [|discriminate].
    intros [= <-]. cbn. rewrite (parse_type_some _ _ Ht), (IH ds' eq_refl).
    reflexivity.
Qed.

End Validation.

(** C8: construction fails with [ConfigurationError] exactly when the data is
    malformed (a duplicated field name, a field type outside the enumeration,
    or an empty required string setting); on any other data it succeeds, and
    the record it gives holds the data unchanged behind accessors that cannot
    fail. *)
Theorem construct_fails_iff_malformed (raw : Loader.RawConfiguration) :
  (Loader.construct raw = inl Loader.ConfigurationError <-> Loader.malformed raw)
  /\ (~ Loader.malformed raw ->
      exists r : Loader.ConfigurationRecord,
        Loader.construct raw = inr r
        /\ Loader.getStorageConfig r = Loader.raw_storage raw
        /\ Loader.table_name (Loader.getTableSchema r) = Loader.raw_table_name raw
        /\ map (fun d => (Loader.name d, Loader.type_tag (Loader.type d)))
               (Loader.fields (Loader.getTableSchema r))
           = Loader.raw_fields raw).
Proof.
  assert (Loader.construct raw = inl Loader.ConfigurationError <-> Loader.malformed raw)
    as Hiff.
  { unfold Loader.construct, Loader.malformed, Loader.duplicated_name,
      Loader.type_outside_enumeration, Loader.empty_setting.
    rewrite <- has_duplicate_spec, <- parse_fields_none, <- existsb_is_empty_spec.
    destruct (existsb Loader.is_empty (Loader.required_settings raw)); [tauto|].
    destruct (Loader.has_duplicate (map fst (Loader.raw_fields raw))); [tauto|].
    destruct (Loader.parse_fields (Loader.raw_fields raw)); [|tauto].
    split; [discriminate|]. intros [H|[H|H]]; discriminate H. }
  split; [exact Hiff|].
  intros Hwf.
  assert (Loader.construct raw <> inl Loader.ConfigurationError) as Hne.
  { intros H. apply Hwf, Hiff, H. }
  unfold Loader.construct in *.
  destruct (existsb Loader.is_empty (Loader.required_settings raw)); [congruence|].
  destruct (Loader.has_duplicate (map fst (Loader.raw_fields raw))); [congruence|].
  destruct (Loader.parse_fields (Loader.raw_fields raw)) as [ds|] eqn:Hds; [|congruence].
  eexists. split; [reflexivity|]. cbn.
  split; [reflexivity|]. split; [reflexivity|].
  exact (parse_fields_some _ _ Hds).
Qed.

(** The data of the module itself is not malformed, and the loader accepts
    it. *)
Lemma construct_fails_iff_malformed_witness :
  exists (raw : Loader.RawConfiguration) (r : Loader.ConfigurationRecord),
    Loader.raw_of_module = Ok raw
    /\ ~ Loader.malformed raw
    /\ Loader.construct raw = inr r
    /\ length (Loader.fields (Loader.getTableSchema r)) = 32.
Proof.
  destruct Loader.raw_of_module as [raw|e] eqn:Hraw;
    [|vm_compute in Hraw; discriminate Hraw].
  vm_compute in Hraw. injection Hraw as <-.
  match goal with
  | |- exists raw0 r, Ok ?lit = Ok raw0 /\ _ =>
      exists lit; destruct (construct_fails_iff_malformed lit) as [Hiff Hok]
  end.
  match type of Hok with ?P -> _ => assert P as Hwf end.
  { intros Hm. apply Hiff in Hm. vm_compute in Hm. discriminate Hm. }
  destruct (Hok Hwf) as (r & Hr & _).
  exists r. split; [reflexivity|]. split; [exact Hwf|]. split; [exact Hr|].
  vm_compute in Hr. injection Hr as <-. reflexivity.
Defined.

(** * JSON round trip *)

Section RoundTrip.
Import Json.

Lemma append_nil_l (b : string) : EmptyString +:+ b = b.
Proof. reflexivity. Qed.

Lemma append_cons (x : ascii) (a b : string) : String x a +:+ b = String x (a +:+ b).
Proof. reflexivity. Qed.

Lemma append_assoc (a b c : string) : (a +:+ b) +:+ c = a +:+ (b +:+ c).
Proof.
  induction a as [|x a IH]; [reflexivity|].
  rewrite !append_cons, IH. reflexivity.
Qed.

Lemma length_append (a b : string) :
  String.length (a +:+ b) = String.length a + String.length b.
Proof.
  induction a as [|x a IH]; [reflexivity|].
  rewrite append_cons. cbn [String.length]. rewrite IH. reflexivity.
Qed.

Lemma scan_escape_char (c : ascii) (t : string) :
  scan_string (escape_char c +:+ t)
  = match scan_string t with
    | Some (r, rest) => Some (String c r, rest)
    | None => None
    end.
Proof.
  destruct c as [[] [] [] [] [] [] [] []]; reflexivity.
Qed.

Lemma scan_escape (s rest : string) :
  scan_string (escape s +:+ String quote rest) = Some (s, rest).
Proof.
  induction s as [|c s IH]; cbn [escape].
  - reflexivity.
  - rewrite append_assoc, scan_escape_char, IH. reflexivity.
Qed.

Lemma dict_setitem_fresh (d : list (string * pyval)) (k : string) (v : pyval) :
  ~ In k (map fst d) -> dict_setitem d k v = d ++ [(k, v)].
Proof.
  induction d as [|[k' v'] d IH]; intros Hk; [reflexivity|].
  cbn [dict_setitem]. destruct (String.eqb_spec k' k) as [->|Hne].
  - exfalso. apply Hk. left. reflexivity.
  - rewrite IH; [reflexivity|]. intros Hin. apply Hk. right. exact Hin.
Qed.

Lemma dict_display_app (acc pairs : list (string * pyval)) :
  NoDup (map fst (acc ++ pairs)) ->
  fold_left (fun d kv => dict_setitem d (fst kv) (snd kv)) pairs acc = acc ++ pairs.
Proof.
  revert acc. induction pairs as [|[k v] pairs IH]; intros acc Hnd; cbn [fold_left].
  - rewrite app_nil_r. reflexivity.
  - cbn [fst snd]. rewrite dict_setitem_fresh.
    + rewrite IH; rewrite <- app_assoc; [reflexivity | exact Hnd].
    + rewrite map_app in Hnd. apply NoDup_app in Hnd as (_ & Hdis & _).
      intros Hin. apply (Hdis k); [apply list_elem_of_In; exact Hin | left].
Qed.

Lemma dict_display_nodup (pairs : list (string * pyval)) :
  NoDup (map fst pairs) -> dict_display pairs = pairs.
Proof. intros Hnd. unfold dict_display. rewrite dict_display_app; [reflexivity | exact Hnd]. Qed.

Lemma dumps_opens (v : pyval) : exists c s, dumps v = String c s /\ opener c.
Proof.
  destruct v; cbn [dumps]; unfold dumps_str, opener; rewrite ?append_cons; eauto 6.
Qed.

Lemma parse_value_S (fuel : nat) (s : string) :
  parse_value (S fuel) s
  = match skip_ws s with
    | String c r =>
        if Ascii.eqb c quote then
          match scan_string r with
          | Some (t, rest) => Some (PStr t, rest)
          | None => None
          end
        else if Ascii.eqb c "[" then
          match skip_ws r with
          | String "]" rest => Some (PList [], rest)
          | _ =>
              match parse_elements fuel r with
              | Some (vs, rest) => Some (PList vs, rest)
              | None => None
              end
          end
        else if Ascii.eqb c "{" then
          match skip_ws r with
          | String "}" rest => Some (PDict [], rest)
          | _ =>
              match parse_members fuel r with
              | Some (kvs, rest) => Some (PDict (dict_display kvs), rest)
              | None => None
              end
          end
        else None
    | EmptyString => None
    end.
Proof. reflexivity. Qed.

Lemma parse_elements_S (fuel : nat) (s : string) :
  parse_elements (S fuel) s
  = match parse_value fuel s with
    | Some (v, rest) =>
        match skip_ws rest with
        | String "," rest' =>
            match parse_elements fuel rest' with
            | Some (vs, rest'') => Some (v :: vs, rest'')
            | None => None
            end
        | String "]" rest' => Some ([v], rest')
        | _ => None
        end
    | None => None
    end.
Proof. reflexivity. Qed.

Lemma parse_members_S (fuel : nat) (s : string) :
  parse_members (S fuel) s
  = match skip_ws s with
    | String c r =>
        if Ascii.eqb c quote then
          match scan_string r with
          | Some (k, rest) =>
              match skip_ws rest with
              | String ":" rest' =>
                  match parse_value fuel rest' with
                  | Some (v, rest'') =>
                      match skip_ws rest'' with
                      | String "," rest3 =>
                          match parse_members fuel rest3 with
                          | Some (kvs, rest4) => Some ((k, v) :: kvs, rest4)
                          | None => None
                          end
                      | String "}" rest3 => Some ([(k, v)], rest3)
                      | _ => None
                      end
                  | None => None
                  end
              | _ => None
              end
          | None => None
          end
        else None
    | EmptyString => None
    end.
Proof. reflexivity. Qed.

Lemma skip_ws_space (s : string) : skip_ws (String " " s) = skip_ws s.
Proof. reflexivity. Qed.

Lemma skip_ws_opener (c : ascii) (s : string) :
  opener c -> skip_ws (String c s) = String c s.
Proof. intros [-> | [-> | ->] ]; reflexivity. Qed.

Lemma parse_value_space (fuel : nat) (s : string) :
  parse_value fuel (String " " s) = parse_value fuel s.
Proof. destruct fuel; [reflexivity|]. rewrite !parse_value_S, skip_ws_space. reflexivity. Qed.

Lemma parse_elements_space (fuel : nat) (s : string) :
  parse_elements fuel (String " " s) = parse_elements fuel s.
Proof.
  destruct fuel; [reflexivity|]. rewrite !parse_elements_S, parse_value_space. reflexivity.
Qed.

Lemma parse_members_space (fuel : nat) (s : string) :
  parse_members fuel (String " " s) = parse_members fuel s.
Proof. destruct fuel; [reflexivity|]. rewrite !parse_members_S, skip_ws_space. reflexivity. Qed.

Lemma parse_elements_dumps (items : list pyval) :
  items <> [] ->
  Forall parses items ->
  forall (fuel : nat) (rest : string),
    list_sum (map (fun x => S (size x)) items) <= fuel ->
    parse_elements fuel (String.concat ", " (map dumps items) +:+ String "]" rest)
    = Some (items, rest).
Proof.
  induction items as [|x xs IH]; [congruence|].
  intros _ HF fuel rest Hfuel.
  inversion HF as [|? ? Hx Hxs]; subst.
  destruct fuel as [|fuel]; [cbn in Hfuel; lia|].
  simpl in Hfuel.
  rewrite parse_elements_S. destruct xs as [|y ys].
  - simpl in Hfuel.
    cbn [map String.concat]. rewrite (Hx fuel (String "]" rest)) by lia. reflexivity.
  - change (String.concat ", " (map dumps (x :: y :: ys)))
      with (dumps x +:+ ", " +:+ String.concat ", " (map dumps (y :: ys))).
    rewrite !append_assoc, !append_cons, append_nil_l.
    set (tail := String.concat ", " (map dumps (y :: ys)) +:+ String "]" rest) in *.
    rewrite (Hx fuel) by lia.
    change (skip_ws (String "," (String " " tail))) with (String "," (String " " tail)).
    cbv iota beta.
    rewrite parse_elements_space. subst tail.
    rewrite IH; [reflexivity | discriminate | exact Hxs | ].
    simpl. simpl in Hfuel. lia.
Qed.

Lemma parse_members_dumps (entries : list (string * pyval)) :
  entries <> [] ->
  Forall (fun kv => parses (snd kv)) entries ->
  forall (fuel : nat) (rest : string),
    list_sum (map (fun kv => S (size (snd kv))) entries) <= fuel ->
    parse_members fuel
      (String.concat ", "
         (map (fun kv => dumps_str (fst kv) +:+ ": " +:+ dumps (snd kv)) entries)
       +:+ String "}" rest)
    = Some (entries, rest).
Proof.
  induction entries as [|[k v] kvs IH]; [congruence|].
  intros _ HF fuel rest Hfuel.
  inversion HF as [|? ? Hv Hkvs]; subst. cbn [snd] in Hv.
  destruct fuel as [|fuel]; [cbn in Hfuel; lia|].
  simpl in Hfuel.
  rewrite parse_members_S. destruct kvs as [|kv kvs].
  - simpl in Hfuel.
    cbn [map String.concat fst snd]. unfold dumps_str.
    rewrite !append_assoc, !append_cons, !append_assoc, !append_cons, !append_nil_l.
    rewrite skip_ws_opener by (left; reflexivity).
    change (Ascii.eqb quote quote) with true. cbv iota beta.
    rewrite scan_escape.
    match goal with
    | |- context [skip_ws (String ":" ?s)] =>
        change (skip_ws (String ":" s)) with (String ":" s)
    end.
    cbv iota beta. rewrite parse_value_space, (Hv fuel) by lia.
    reflexivity.
  - set (f := fun kv0 : string * pyval => dumps_str (fst kv0) +:+ ": " +:+ dumps (snd kv0)).
    change (String.concat ", " (map f ((k, v) :: kv :: kvs)))
      with (f (k, v) +:+ ", " +:+ String.concat ", " (map f (kv :: kvs))).
    unfold f at 1. cbn [fst snd]. unfold dumps_str.
    rewrite !append_assoc, !append_cons, !append_assoc, !append_cons, !append_nil_l.
    set (tail := String.concat ", " (map f (kv :: kvs)) +:+ String "}" rest) in *.
    rewrite skip_ws_opener by (left; reflexivity).
    change (Ascii.eqb quote quote) with true. cbv iota beta.
    rewrite scan_escape.
    match goal with
    | |- context [skip_ws (String ":" ?s)] =>
        change (skip_ws (String ":" s)) with (String ":" s)
    end.
    cbv iota beta. rewrite parse_value_space, (Hv fuel) by lia.
    change (skip_ws (String "," (String " " tail))) with (String "," (String " " tail)).
    cbv iota beta.
    rewrite parse_members_space. subst tail f.
    rewrite IH; [reflexivity | discriminate | exact Hkvs | ].
    simpl. simpl in Hfuel. lia.
Qed.

Lemma concat_opens (f : list string) (x : string) (c : ascii) (s : string) :
  x = String c s ->
  exists s', String.concat ", " (x :: f) = String c s'.
Proof.
  intros ->. destruct f as [|y f]; [eexists; reflexivity|].
  change (String.concat ", " (String c s :: y :: f))
    with (String c s +:+ ", " +:+ String.concat ", " (y :: f)).
  rewrite append_cons. eexists; reflexivity.
Qed.

Lemma forallb_parses (items : list pyval) :
  Forall (fun v => well_formed v = true -> parses v) items ->
  forallb well_formed items = true ->
  Forall parses items.
Proof.
  intros HF Hwf. rewrite forallb_forall in Hwf. rewrite Forall_forall in HF |- *.
  intros v Hv. apply HF; [exact Hv | apply Hwf, list_elem_of_In; exact Hv].
Qed.

Ltac norm_append :=
  repeat first [rewrite append_assoc | rewrite append_cons | rewrite append_nil_l].

Lemma well_formed_parses (v : pyval) : well_formed v = true -> parses v.
Proof.
  induction v as [s | items IH | entries IH] using pyval_ind; intros Hwf fuel rest Hfuel.
  - destruct fuel as [|fuel]; [simpl in Hfuel; lia|].
    rewrite parse_value_S. cbn [dumps]. unfold dumps_str. norm_append.
    rewrite skip_ws_opener by (left; reflexivity).
    change (Ascii.eqb quote quote) with true. cbv iota beta.
    rewrite scan_escape. reflexivity.
  - cbn [well_formed] in Hwf. pose proof (forallb_parses _ IH Hwf) as HP.
    destruct fuel as [|fuel]; [simpl in Hfuel; lia|].
    cbn [size] in Hfuel. cbn [dumps].
    destruct items as [|x xs]; [reflexivity|].
    norm_append.
    rewrite parse_value_S, skip_ws_opener by (right; left; reflexivity).
    change (Ascii.eqb "[" quote) with false.
    change (Ascii.eqb "[" "[") with true. cbv iota beta.
    rewrite parse_elements_dumps; [| discriminate | exact HP | lia].
    destruct (dumps_opens x) as (c & s & Hx & Hc).
    destruct (concat_opens (map dumps xs) _ _ _ Hx) as (s' & Hs').
    change (map dumps (x :: xs)) with (dumps x :: map dumps xs).
    rewrite Hs', append_cons, skip_ws_opener by exact Hc.
    destruct Hc as [-> | [-> | ->] ]; reflexivity.
  - cbn [well_formed] in Hwf. apply andb_prop in Hwf as [Hnd Hwf].
    apply bool_decide_eq_true in Hnd.
    assert (Forall (fun kv => parses (snd kv)) entries) as HP.
    { rewrite forallb_forall in Hwf. rewrite Forall_forall in IH |- *.
      intros kv Hkv. apply IH; [exact Hkv | apply Hwf, list_elem_of_In; exact Hkv]. }
    destruct fuel as [|fuel]; [simpl in Hfuel; lia|].
    cbn [size] in Hfuel. cbn [dumps].
    destruct entries as [|[k v] kvs]; [reflexivity|].
    norm_append.
    rewrite parse_value_S, skip_ws_opener by (right; right; reflexivity).
    change (Ascii.eqb "{" quote) with false.
    change (Ascii.eqb "{" "[") with false.
    change (Ascii.eqb "{" "{") with true. cbv iota beta.
    rewrite parse_members_dumps; [| discriminate | exact HP | lia].
    rewrite (dict_display_nodup _ Hnd).
    set (f := fun kv : string * pyval => dumps_str (fst kv) +:+ ": " +:+ dumps (snd kv)).
    change (map f ((k, v) :: kvs)) with (f (k, v) :: map f kvs).
    assert (exists s, f (k, v) = String quote s) as (s & Hs)
      by (eexists; reflexivity).
    destruct (concat_opens (map f kvs) _ _ _ Hs) as (s' & Hs').
    rewrite Hs', append_cons, skip_ws_opener by (left; reflexivity).
    reflexivity.
Qed.

Lemma append_nil_r (a : string) : a +:+ EmptyString = a.
Proof.
  induction a as [|x a IH]; [reflexivity|]. rewrite append_cons, IH. reflexivity.
Qed.

Lemma length_concat (sep : string) (l : list string) :
  list_sum (map String.length l) <= String.length (String.concat sep l).
Proof.
  induction l as [|x l IH]; [reflexivity|].
  destruct l as [|y l].
  - simpl. lia.
  - change (String.concat sep (x :: y :: l)) with (x +:+ sep +:+ String.concat sep (y :: l)).
    rewrite !length_append. simpl in *. lia.
Qed.

Lemma list_sum_le {A : Type} (f g : A -> nat) (l : list A) :
  Forall (fun x => f x <= g x) l -> list_sum (map f l) <= list_sum (map g l).
Proof. induction 1; simpl; lia. Qed.

Lemma size_lt_length (v : pyval) : size v < String.length (dumps v).
Proof.
  induction v as [s | items IH | entries IH] using pyval_ind.
  - cbn [dumps size]. unfold dumps_str. cbn [String.length].
    rewrite length_append. simpl. lia.
  - cbn [dumps size]. rewrite append_cons, append_nil_l.
    cbn [String.length]. rewrite length_append. cbn [String.length].
    pose proof (length_concat ", " (map dumps items)) as Hc. rewrite map_map in Hc.
    pose proof (list_sum_le (fun x => S (size x)) (fun x => String.length (dumps x)) items) as Hs.
    assert (list_sum (map (fun x => S (size x)) items)
            <= list_sum (map (fun x => String.length (dumps x)) items)) as Hle.
    { apply Hs. eapply Forall_impl; [exact IH|]. cbn. intros; lia. }
    lia.
  - cbn [dumps size]. rewrite append_cons, append_nil_l.
    cbn [String.length]. rewrite length_append. cbn [String.length].
    set (f := fun kv : string * pyval => dumps_str (fst kv) +:+ ": " +:+ dumps (snd kv)).
    pose proof (length_concat ", " (map f entries)) as Hc. rewrite map_map in Hc.
    assert (list_sum (map (fun kv => S (size (snd kv))) entries)
            <= list_sum (map (fun kv => String.length (f kv)) entries)) as Hle.
    { apply list_sum_le. eapply Forall_impl; [exact IH|]. cbn. intros kv Hkv.
      unfold f. rewrite !length_append. lia. }
    lia.
Qed.

(** Reading back the JSON text of any well-formed value gives the value. *)
Theorem loads_dumps (v : pyval) : well_formed v = true -> loads (dumps v) = Ok v.
Proof.
  intros Hwf. unfold loads.
  pose proof (well_formed_parses v Hwf (S (String.length (dumps v))) EmptyString) as Hp.
  rewrite append_nil_r in Hp. rewrite Hp; [reflexivity|].
  pose proof (size_lt_length v). lia.
Qed.

End RoundTrip.

(** C6: the JSON text of the Configuration Record, read back, is the record;
    so it is for each of its two dictionaries on its own. *)
Theorem configuration_record_roundtrip :
  Json.loads (Json.dumps Json.configuration_record) = Ok Json.configuration_record
  /\ Json.loads (Json.dumps GCP_CONFIG) = Ok GCP_CONFIG
  /\ Json.loads (Json.dumps BIGQUERY_CONFIG) = Ok BIGQUERY_CONFIG.
Proof. repeat split; apply loads_dumps; vm_compute; reflexivity. Qed.

(** * Further properties of the module *)

Section Dictionaries.

Lemma dict_get_setitem_eq (d : list (string * pyval)) (k : string) (v : pyval) :
  dict_get (dict_setitem d k v) k = Some v.
Proof.
  induction d as [|[k' v'] d IH]; cbn [dict_setitem dict_get].
  - rewrite String.eqb_refl. reflexivity.
  - destruct (String.eqb_spec k' k) as [->|Hne]; cbn [dict_get].
    + rewrite String.eqb_refl. reflexivity.
    + destruct (String.eqb_spec k' k) as [Heq|_]; [contradiction | exact IH].
Qed.

Lemma dict_get_setitem_ne (d : list (string * pyval)) (k x : string) (v : pyval) :
  k <> x -> dict_get (dict_setitem d k v) x = dict_get d x.
Proof.
  intros Hkx. induction d as [|[k' v'] d IH]; cbn [dict_setitem dict_get].
  - destruct (String.eqb_spec k x) as [Heq|_]; [contradiction | reflexivity].
  - destruct (String.eqb_spec k' k) as [->|Hne]; cbn [dict_get].
    + destruct (String.eqb_spec k x) as [Heq|_]; [contradiction | reflexivity].
    + rewrite IH. reflexivity.
Qed.


Lemma dict_get_missing (d : list (string * pyval)) (k : string) :
  ~ In k (map fst d) -> dict_get d k = None.
Proof.
  induction d as [|[k' v'] d IH]; intros Hk; cbn [dict_get]; [reflexivity|].
  destruct (String.eqb_spec k' k) as [->|Hne].
  - exfalso. apply Hk. left. reflexivity.
  - apply IH. intros Hin. apply Hk. right. exact Hin.
Qed.

(** A subscript with a key the value does not list raises [KeyError]. *)
Lemma getitem_missing (d : pyval) (k : string) (ks : list string) :
  py_keys d = Ok ks -> ~ In k ks -> getitem d k = Raise (KeyError k).
Proof.
  destruct d as [s | items | entries]; cbn [py_keys getitem]; try discriminate.
  intros [= <-] Hk. rewrite (dict_get_missing _ _ Hk). reflexivity.
Qed.

Lemma exec_body_unfold (g : Process.globals) :
  exec_body g
  = dict_setitem
      (dict_setitem
         (dict_setitem g "__doc__" (PStr "Google Cloud Platform configuration settings."))
         "GCP_CONFIG" GCP_CONFIG)
      "BIGQUERY_CONFIG" BIGQUERY_CONFIG.
Proof. reflexivity. Qed.

End Dictionaries.

(** X1: run in a namespace that holds [__builtins__], as every namespace
    does when the first statement of a body runs, the module body binds
    [GCP_CONFIG] and [BIGQUERY_CONFIG] to the two dictionaries and [__doc__]
    to the docstring, whatever those names held before, and leaves every
    other name of the namespace as it was. *)
Theorem exec_body_binds_and_frames (g : Process.globals) :
  In "__builtins__" (map fst g) ->
  Process.load_global "GCP_CONFIG" (exec_body g) = Ok GCP_CONFIG
  /\ Process.load_global "BIGQUERY_CONFIG" (exec_body g) = Ok BIGQUERY_CONFIG
  /\ Process.load_global "__doc__" (exec_body g)
     = Ok (PStr "Google Cloud Platform configuration settings.")
  /\ forall x : string,
       ~ In x BODY_NAMES ->
       Process.load_global x (exec_body g) = Process.load_global x g.
Proof.
  intros _.
  rewrite exec_body_unfold. unfold Process.load_global.
  split; [|split; [|split]].
  - rewrite dict_get_setitem_ne by discriminate.
    rewrite dict_get_setitem_eq. reflexivity.
  - rewrite dict_get_setitem_eq. reflexivity.
  - rewrite !dict_get_setitem_ne by discriminate.
    rewrite dict_get_setitem_eq. reflexivity.
  - intros x Hx.
    rewrite !dict_get_setitem_ne; [reflexivity | | |];
      intros <-; apply Hx; unfold BODY_NAMES; cbn [In]; tauto.
Qed.

Lemma exec_body_binds_and_frames_witness :
  Process.load_global "__name__"
    (exec_body [ ("__name__", PStr "config.gcp_config"); ("__builtins__", PDict []);
                 ("GCP_CONFIG", PStr "stale") ])
  = Ok (PStr "config.gcp_config")
  /\ Process.load_global "GCP_CONFIG"
       (exec_body [ ("__name__", PStr "config.gcp_config"); ("__builtins__", PDict []);
                    ("GCP_CONFIG", PStr "stale") ])
     = Ok GCP_CONFIG.
Proof.
  destruct (exec_body_binds_and_frames
              [ ("__name__", PStr "config.gcp_config"); ("__builtins__", PDict []);
                ("GCP_CONFIG", PStr "stale") ])
    as (Hg & _ & _ & Hframe).
  - cbn [map fst In]. tauto.
  - split; [|exact Hg].
    rewrite (Hframe "__name__"); [reflexivity|].
    unfold BODY_NAMES. cbn [In]. intros [H|[H|[H|H]]]; try discriminate H; exact H.
Defined.


(** X3: a subscript with a key that a dictionary of the module does not hold
    raises [KeyError] for that key: any key outside the eight of
    [GCP_CONFIG], any key but [booking_table] and [schema] on
    [BIGQUERY_CONFIG], and any key but [name] and [type] on every schema
    entry. *)
Theorem missing_key_raises (k : string) :
  (~ In k STORAGE_KEYS -> getitem GCP_CONFIG k = Raise (KeyError k))
  /\ (~ In k [ "booking_table"; "schema" ] ->
      getitem BIGQUERY_CONFIG k = Raise (KeyError k))
  /\ (~ In k [ "name"; "type" ] ->
      Forall (fun f => getitem f k = Raise (KeyError k)) schema_fields).
Proof.
  split; [|split].
  - apply getitem_missing. reflexivity.
  - apply getitem_missing. reflexivity.
  - intros Hk. unfold schema_fields. cbn.
    repeat (first [ apply List.Forall_nil
                  | apply List.Forall_cons;
                    [eapply getitem_missing; [reflexivity | exact Hk] |] ]).
Qed.

Lemma missing_key_raises_witness :
  getitem GCP_CONFIG "region" = Raise (KeyError "region")
  /\ Forall (fun f => getitem f "mode" = Raise (KeyError "mode")) schema_fields.
Proof.
  split.
  - apply (proj1 (missing_key_raises "region")).
    unfold STORAGE_KEYS. cbn [In]. intros H.
    repeat (destruct H as [H|H]; [discriminate H|]). exact H.
  - apply (proj2 (proj2 (missing_key_raises "mode"))).
    cbn [In]. intros H.
    repeat (destruct H as [H|H]; [discriminate H|]). exact H.
Defined.

(** X4: no string that starts with one of the three storage prefixes starts
    with another: an object name put under one prefix is never the name of
    an object put under a different prefix. *)
Theorem prefixes_never_collide (k1 k2 p1 p2 a b : string) :
  In k1 PREFIX_KEYS ->
  In k2 PREFIX_KEYS ->
  k1 <> k2 ->
  getitem GCP_CONFIG k1 = Ok (PStr p1) ->
  getitem GCP_CONFIG k2 = Ok (PStr p2) ->
  p1 +:+ a <> p2 +:+ b.
Proof.
  unfold PREFIX_KEYS. cbn [In].
  intros H1 H2 Hne G1 G2.
  destruct H1 as [<-|[<-|[<-|[]]]]; destruct H2 as [<-|[<-|[<-|[]]]];
    try (exfalso; apply Hne; reflexivity);
    vm_compute in G1; vm_compute in G2;
    injection G1 as <-; injection G2 as <-;
    rewrite !append_cons; discriminate.
Qed.

Lemma prefixes_never_collide_witness : "raw/" +:+ "2017.csv" <> "processed/" +:+ "2017.csv".
Proof.
  apply (prefixes_never_collide "raw_data_prefix" "processed_data_prefix");
    [ unfold PREFIX_KEYS; cbn [In]; tauto
    | unfold PREFIX_KEYS; cbn [In]; tauto
    | discriminate
    | reflexivity
    | reflexivity ].
Defined.

(** X5: the table name and every field name of the schema is a lowercase
    letter followed only by lowercase letters and underscores. *)
Theorem names_are_snake_case :
  (exists t, getitem BIGQUERY_CONFIG "booking_table" = Ok (PStr t)
             /\ is_snake_name t = true)
  /\ Forall (fun f => exists n, getitem f "name" = Ok (PStr n) /\ is_snake_name n = true)
            schema_fields.
Proof.
  split; [eexists; split; reflexivity|].
  unfold schema_fields. cbn.
  repeat (first [ apply List.Forall_nil
                | apply List.Forall_cons; [eexists; split; reflexivity |] ]).
Qed.

(** X6: the bucket name and the dataset id are built on the project id: the
    bucket name is the project id followed by [-data], and the dataset id is
    the project id with every hyphen replaced by an underscore. *)
Theorem names_derive_from_project_id :
  exists p : string,
    getitem GCP_CONFIG "project_id" = Ok (PStr p)
    /\ getitem GCP_CONFIG "bucket_name" = Ok (PStr (p +:+ "-data"))
    /\ getitem GCP_CONFIG "dataset_id" = Ok (PStr (str_replace_char "-" "_" p)).
Proof. eexists. repeat split; reflexivity. Qed.

(** * The definitions at work on small inputs *)

Example dict_display_repeated_key :
  dict_display [ ("a", PStr "1"); ("b", PStr "2"); ("a", PStr "3") ]
  = [ ("a", PStr "3"); ("b", PStr "2") ].
Proof. reflexivity. Qed.

Example getitem_missing_key : getitem GCP_CONFIG "region" = Raise (KeyError "region").
Proof. reflexivity. Qed.

Example getitem_on_list : schema ≫= (fun s => getitem s "name") = Raise TypeError.
Proof. reflexivity. Qed.

Example schema_names_head :
  (take 3 <$> schema_names) = Ok [ "hotel"; "is_canceled"; "lead_time" ].
Proof. reflexivity. Qed.

Example lookup_first_field : lookup_field "hotel" = Ok (Some (PStr "STRING")).
Proof. reflexivity. Qed.

Example endswith_no_separator : endswith "raw" "/" = false.
Proof. reflexivity. Qed.

Example loaded_accessors :
  Runtime.getStorageConfig Runtime.loaded = Ok (3, GCP_CONFIG)
  /\ Runtime.getTableSchema Runtime.loaded = Ok (4, BIGQUERY_CONFIG).
Proof. split; reflexivity. Qed.

Example reload_gives_new_object :
  Runtime.getStorageConfig (Runtime.run [ Runtime.Reload ] Runtime.loaded)
  = Ok (6, GCP_CONFIG).
Proof. reflexivity. Qed.

Example set_item_on_string_is_ignored :
  Runtime.run [ Runtime.SetItem 2 "k" (PStr "v") ] Runtime.loaded = Runtime.loaded.
Proof. reflexivity. Qed.

Example construct_rejects_duplicate_name :
  forall s : Loader.StorageConfiguration,
    Loader.construct
      {| Loader.raw_storage := s; Loader.raw_table_name := "t";
         Loader.raw_fields := [ ("adr", "FLOAT"); ("adr", "FLOAT") ] |}
    = inl Loader.ConfigurationError.
Proof.
  intros s. unfold Loader.construct.
  destruct (existsb _ _); reflexivity.
Qed.

Example construct_rejects_unknown_type :
  (fun raw => Loader.construct
     {| Loader.raw_storage := Loader.raw_storage raw;
        Loader.raw_table_name := Loader.raw_table_name raw;
        Loader.raw_fields := [ ("is_canceled", "BOOLEAN") ] |})
  <$> Loader.raw_of_module
  = Ok (inl Loader.ConfigurationError).
Proof. vm_compute. reflexivity. Qed.

Example construct_rejects_empty_table_name :
  (fun raw => Loader.construct
     {| Loader.raw_storage := Loader.raw_storage raw;
        Loader.raw_table_name := EmptyString;
        Loader.raw_fields := Loader.raw_fields raw |})
  <$> Loader.raw_of_module
  = Ok (inl Loader.ConfigurationError).
Proof. vm_compute. reflexivity. Qed.

Example dumps_prefix_entry :
  Json.dumps (PDict [ ("raw_data_prefix", PStr "raw/") ])
  = "{" +:+ String Json.quote ("raw_data_prefix" +:+ String Json.quote
      (": " +:+ String Json.quote ("raw/" +:+ String Json.quote "}"))).
Proof. reflexivity. Qed.

Example dumps_escapes_newline :
  Json.dumps (PStr (String (ascii_of_nat 10) "a"))
  = String Json.quote (String Json.backslash ("na" +:+ String Json.quote EmptyString)).
Proof. reflexivity. Qed.

Example loads_unicode_escape :
  Json.loads (String Json.quote (String Json.backslash ("u0041" +:+ String Json.quote " ")))
  = Ok (PStr "A").
Proof. reflexivity. Qed.

Example loads_nested_empty : Json.loads " [ [ ] , { } ] " = Ok (PList [ PList []; PDict [] ]).
Proof. reflexivity. Qed.

Example loads_unclosed : Json.loads "[" = Raise JSONDecodeError.
Proof. reflexivity. Qed.

Example loads_extra_data : Json.loads "[] x" = Raise JSONDecodeError.
Proof. reflexivity. Qed.

Example loads_repeated_key :
  Json.loads (Json.dumps (PDict [ ("a", PStr "1"); ("a", PStr "2") ]))
  = Ok (PDict [ ("a", PStr "2") ]).
Proof. reflexivity. Qed.

Example record_text_length :
  String.length (Json.dumps Json.configuration_record) = 1888.
Proof. vm_compute. reflexivity. Qed.
